(** * Jikan anime ETL pipeline: extraction, transformation, loading

    A shallow embedding of [src/dag/etl.py] (class [JikanDataExtractor]).

    Python values are an inductive type, exceptions are an error monad
    ([pyresult]), the HTTP service and the database are explicit worlds, the
    logger and the network are a trace of events, and DataFrame objects live
    in a store so that in-place updates and aliasing are visible. *)

From Stdlib Require Import ZArith QArith Ascii String List Lia Bool.
From stdpp Require Import base option list gmap strings.

Local Open Scope string_scope.
Local Open Scope list_scope.
Local Open Scope Z_scope.

(** ** Python values and exceptions *)

(** [datetime.date]. *)
Record date := mkdate { year : Z; month : Z; day : Z }.

(** The values that flow through the pipeline: decoded JSON ([None], [bool],
    [int], [float], [str], [list], [dict] in insertion order), the float
    [nan] that pandas uses for a missing cell, and [datetime.date]. *)
#[warnings="-register-all"]
Inductive pyval : Type :=
  | PNone
  | PNaN
  | PBool (b : bool)
  | PInt (n : Z)
  | PFloat (q : Q)
  | PStr (s : string)
  | PList (l : list pyval)
  | PDict (d : list (string * pyval))
  | PDate (d : date).

(** Exception classes that the code names or that its operations raise. *)
Inductive exc : Type :=
  | RequestException        (* requests.RequestException itself *)
  | ConnectionError         (* requests.ConnectionError *)
  | Timeout                 (* requests.Timeout *)
  | HTTPError               (* requests.HTTPError, from raise_for_status *)
  | RequestsJSONDecodeError (* requests.exceptions.JSONDecodeError *)
  | KeyError
  | TypeError
  | ValueError
  | AttributeError
  | UnboundLocalError
  | Psycopg2Error           (* psycopg2.Error and its subclasses *)
  | OtherException (name : string).

(** [isinstance(e, requests.RequestException)]. *)
Definition is_RequestException (e : exc) : bool :=
  match e with
  | RequestException | ConnectionError | Timeout | HTTPError
  | RequestsJSONDecodeError => true
  | _ => false
  end.

(** A call either returns or raises. *)
Inductive pyresult (A : Type) : Type :=
  | Returns (a : A)
  | Raises (e : exc).
Arguments Returns {A} a.
Arguments Raises {A} e.

Definition bind {A B} (r : pyresult A) (k : A -> pyresult B) : pyresult B :=
  match r with
  | Returns a => k a
  | Raises e => Raises e
  end.

Notation "'do' x <- r ; k" := (bind r (fun x => k))
  (at level 10, x name, r at level 100, k at level 200,
   format "'[v' 'do'  x  <-  r ; '/' k ']'").
Notation "'do' '_' <- r ; k" := (bind r (fun _ => k))
  (at level 10, r at level 100, k at level 200).

(** [try: body  except (classes): handler]. *)
Definition try_except {A} (body : pyresult A) (classes : exc -> bool)
    (handler : A) : pyresult A :=
  match body with
  | Returns a => Returns a
  | Raises e => if classes e then Returns handler else Raises e
  end.

(** [f(x) for x in xs], left to right, stopping at the first raise. *)
Fixpoint mapM {A B} (f : A -> pyresult B) (xs : list A) : pyresult (list B) :=
  match xs with
  | [] => Returns []
  | x :: xs' => do y <- f x; do ys <- mapM f xs'; Returns (y :: ys)
  end.

(** Truth value of an object ([bool(v)]). *)
Definition truthy (v : pyval) : bool :=
  match v with
  | PNone => false
  | PNaN => true
  | PBool b => b
  | PInt n => negb (n =? 0)
  | PFloat q => negb (Qnum q =? 0)
  | PStr s => negb (String.eqb s "")
  | PList l => match l with [] => false | _ => true end
  | PDict d => match d with [] => false | _ => true end
  | PDate _ => true
  end.

(** Dictionary lookup on the items of a dict. *)
Fixpoint dict_lookup (d : list (string * pyval)) (k : string) : option pyval :=
  match d with
  | [] => None
  | (k', v) :: d' => if String.eqb k' k then Some v else dict_lookup d' k
  end.

(** [d.get(k)]: [None] when the key is missing. *)
Definition dict_get (d : list (string * pyval)) (k : string) : pyval :=
  match dict_lookup d k with
  | Some v => v
  | None => PNone
  end.

(** [v[k]] for a string key [k]: a dict looks the key up and raises
    [KeyError] when it is missing; every other value raises [TypeError]
    (lists and strings want integer indices, the rest is not
    subscriptable). *)
Definition getitem (v : pyval) (k : string) : pyresult pyval :=
  match v with
  | PDict d => match dict_lookup d k with
               | Some x => Returns x
               | None => Raises KeyError
               end
  | _ => Raises TypeError
  end.

(** The characters of a string, each as a one-character string. *)
Fixpoint chars (s : string) : list pyval :=
  match s with
  | EmptyString => []
  | String c s' => PStr (String c EmptyString) :: chars s'
  end.

(** [iter(v)]: a list yields its elements, a dict its keys, a string its
    characters; other values are not iterable. *)
Definition py_iter (v : pyval) : pyresult (list pyval) :=
  match v with
  | PList l => Returns l
  | PDict d => Returns (map (fun kv => PStr (fst kv)) d)
  | PStr s => Returns (chars s)
  | _ => Raises TypeError
  end.

(** [l.extend(v)]. *)
Definition list_extend (l : list pyval) (v : pyval) : pyresult (list pyval) :=
  do xs <- py_iter v; Returns (l ++ xs).

(** ** Observable events: sleeps, requests and log records *)

Inductive log_record : Type :=
  | InfoExtractedPage (page : Z) (total : nat)
      (* info: "Extracted page {page - 1}, Total anime: {len(all_anime)}" *)
  | ErrorExtracting (page : Z) (e : exc)
      (* error: "Error extracting anime on page {page}: {e}" *)
  | InfoLoaded (n : nat)
      (* info: "Successfully loaded {len(df)} records to anime table" *)
  | ErrorDatabaseLoading (e : exc).
      (* error: "Database loading error: {error}" *)

Inductive event : Type :=
  | EvSleep (seconds : Q)     (* time.sleep returned *)
  | EvGet (page : Z)          (* requests.get(.../anime, page=page, limit=25) *)
  | EvLog (r : log_record).

(** ** Configuration *)

(** [config["api_extraction"]]; [None] is a key that the file leaves out. *)
Record ApiExtraction := {
  max_pages : option Z;
  rate_limit_delay : option Q
}.

(** ** The HTTP service *)

(** What the code reads of a response: the status and what [.json()]
    does (returns the decoded body or raises). *)
Record Response := {
  status_code : Z;
  json : pyresult pyval
}.

(** The service: what [requests.get] does for each page number. *)
Definition http := Z -> pyresult Response.

(** [response.raise_for_status()]: raises [HTTPError] for 4xx and 5xx. *)
Definition raise_for_status (r : Response) : pyresult unit :=
  if (400 <=? status_code r) && (status_code r <? 600)
  then Raises HTTPError else Returns tt.

(** [time.sleep(d)]: raises [ValueError] for a negative length. *)
Definition time_sleep (d : Q) : pyresult unit :=
  if Qle_bool 0 d then Returns tt else Raises ValueError.

(** ** Extractor: [JikanDataExtractor.extract_all_anime] *)

Section Extractor.
Variable cfg : ApiExtraction.
Variable web : http.

(** [.get("max_pages", 10)] and [.get("rate_limit_delay", 2)]. *)
Definition cfg_max_pages : Z := default 10 (max_pages cfg).
Definition cfg_delay : Q := default (2 # 1)%Q (rate_limit_delay cfg).

(** Lines 45-53: the request, the status check, the decoding and
    [data["data"]]. *)
Definition fetch_page (page : Z) : pyresult pyval :=
  do response <- web page;
  do _ <- raise_for_status response;
  do data <- json response;
  getitem data "data".

(** How one pass through the [while True] body ends. *)
Inductive control : Type :=
  | Break (all_anime : list pyval)
  | Continue (page : Z) (all_anime : list pyval)
  | Propagate (e : exc).

(** The [try] block of one iteration, with the events it emits. *)
Definition try_block (page : Z) (all_anime : list pyval)
    : list event * pyresult control :=
  match time_sleep cfg_delay with
  | Raises e => ([], Raises e)
  | Returns _ =>
    let evs := [EvSleep cfg_delay; EvGet page] in
    match fetch_page page with
    | Raises e => (evs, Raises e)
    | Returns d =>
      if negb (truthy d) then (evs, Returns (Break all_anime))
      else
        match list_extend all_anime d with
        | Raises e => (evs, Raises e)
        | Returns all_anime' =>
          if page >=? cfg_max_pages then (evs, Returns (Break all_anime'))
          else
            let page' := page + 1 in
            (evs ++ [EvLog (InfoExtractedPage (page' - 1)
                              (length all_anime'))],
             Returns (Continue page' all_anime'))
        end
    end
  end.

(** One iteration: the [try] block and its
    [except requests.RequestException] clause. *)
Definition iteration (page : Z) (all_anime : list pyval)
    : list event * control :=
  match try_block page all_anime with
  | (evs, Returns c) => (evs, c)
  | (evs, Raises e) =>
    if is_RequestException e
    then (evs ++ [EvLog (ErrorExtracting page e)], Break all_anime)
    else (evs, Propagate e)
  end.

(** The [while True] loop.  [fuel] bounds the number of iterations;
    [None] is running out of it. *)
Fixpoint extract_loop (fuel : nat) (page : Z) (all_anime : list pyval)
    : option (pyresult (list pyval) * list event) :=
  match fuel with
  | O => None
  | S fuel' =>
    match iteration page all_anime with
    | (evs, Break l) => Some (Returns l, evs)
    | (evs, Propagate e) => Some (Raises e, evs)
    | (evs, Continue page' l) =>
      match extract_loop fuel' page' l with
      | Some (r, evs') => Some (r, evs ++ evs')
      | None => None
      end
    end
  end.

(** [extract_all_anime]: the entries of [all_anime], which
    [pd.DataFrame(all_anime)] turns into one row each, and the trace. *)
Definition extract_all_anime : option (pyresult (list pyval) * list event) :=
  extract_loop (Z.to_nat (Z.max 1 cfg_max_pages)) 1 [].

End Extractor.

(** The pages requested in a trace, in order. *)
Fixpoint requests (tr : list event) : list Z :=
  match tr with
  | [] => []
  | EvGet p :: tr' => p :: requests tr'
  | _ :: tr' => requests tr'
  end.

(** The log records of a trace, in order. *)
Fixpoint logged (tr : list event) : list log_record :=
  match tr with
  | [] => []
  | EvLog r :: tr' => r :: logged tr'
  | _ :: tr' => logged tr'
  end.

(** ** State with exceptions

    Code that updates objects in place runs in a state monad with
    exceptions: a step maps a state to a result and the state it leaves,
    also when it raises. *)

Definition SE (S A : Type) : Type := S -> pyresult A * S.

Definition ret {S A} (a : A) : SE S A := fun s => (Returns a, s).

Definition raise {S A} (e : exc) : SE S A := fun s => (Raises e, s).

Definition lift {S A} (r : pyresult A) : SE S A := fun s => (r, s).

Definition bindS {S A B} (m : SE S A) (k : A -> SE S B) : SE S B :=
  fun s =>
    match m s with
    | (Returns a, s') => k a s'
    | (Raises e, s') => (Raises e, s')
    end.

Notation "'doS' x <- m ; k" := (bindS m (fun x => k))
  (at level 10, x name, m at level 100, k at level 200,
   format "'[v' 'doS'  x  <-  m ; '/' k ']'").
Notation "'doS' '_' <- m ; k" := (bindS m (fun _ => k))
  (at level 10, m at level 100, k at level 200).

(** ** DataFrames

    A DataFrame built by [pd.DataFrame] from a list of dicts: one row per
    dict.  Its columns are the keys of the rows in order of first
    appearance, and a cell that a row has no key for reads as [nan]. *)

Abbreviation DataFrame := (list (list (string * pyval))).

Definition has_column (cols : list string) (c : string) : bool :=
  existsb (String.eqb c) cols.

Fixpoint add_keys (cols : list string) (r : list (string * pyval))
    : list string :=
  match r with
  | [] => cols
  | (k, _) :: r' => add_keys (if has_column cols k then cols else cols ++ [k]) r'
  end.

(** [df.columns]. *)
Definition columns (df : DataFrame) : list string := fold_left add_keys df [].

(** The cell of row [r] in column [c]. *)
Definition cell (r : list (string * pyval)) (c : string) : pyval :=
  match dict_lookup r c with
  | Some v => v
  | None => PNaN
  end.

(** [pd.DataFrame(records)] for a list of dicts. *)
Definition pd_DataFrame (records : list (list (string * pyval))) : DataFrame :=
  map (fun r => map (fun c => (c, cell r c)) (columns records)) records.

(** [df[cols]] for a list of labels: a new frame with these columns, or
    [KeyError] when a label is not a column. *)
Definition getitem_columns (df : DataFrame) (cols : list string)
    : pyresult DataFrame :=
  if forallb (has_column (columns df)) cols
  then Returns (map (fun r => map (fun c => (c, cell r c)) cols) df)
  else Raises KeyError.

(** [df[c]] for one label: the values of the column. *)
Definition getitem_column (df : DataFrame) (c : string)
    : pyresult (list pyval) :=
  if has_column (columns df) c
  then Returns (map (fun r => cell r c) df)
  else Raises KeyError.

(** One row with cell [c] set: replaced where the row has the key, added
    at the end otherwise. *)
Fixpoint row_set (r : list (string * pyval)) (c : string) (v : pyval)
    : list (string * pyval) :=
  match r with
  | [] => [(c, v)]
  | (k, x) :: r' =>
    if String.eqb k c then (k, v) :: r' else (k, x) :: row_set r' c v
  end.

(** [df[c] = values], for values computed from a column of [df] itself
    (same index, so row [i] takes value [i]). *)
Fixpoint set_column (df : DataFrame) (c : string) (values : list pyval)
    : DataFrame :=
  match df, values with
  | r :: df', v :: values' => row_set r c v :: set_column df' c values'
  | _, _ => []
  end.

(** [df.drop(columns=cols)]: [KeyError] when a label is not a column. *)
Definition drop_columns (df : DataFrame) (cols : list string)
    : pyresult DataFrame :=
  if forallb (has_column (columns df)) cols
  then Returns (map (List.filter (fun kv => negb (has_column cols (fst kv)))) df)
  else Raises KeyError.

(** [pd.isna] on a cell. *)
Definition isna (v : pyval) : bool :=
  match v with
  | PNone | PNaN => true
  | _ => false
  end.

(** [series.fillna(x)]. *)
Definition fillna (series : list pyval) (x : pyval) : list pyval :=
  map (fun v => if isna v then x else v) series.

(** [df.to_numpy()]: the rows, each in column order. *)
Definition to_numpy (df : DataFrame) : list (list pyval) :=
  map (fun r => map (cell r) (columns df)) df.

(** *** The store of DataFrame objects

    A reference is an index into the store; a new object goes at the end.
    The cells of a frame are values: the code never updates a nested list
    or dict in place, only frames. *)

Abbreviation store := (list DataFrame).

Definition new_frame (df : DataFrame) : SE store nat :=
  fun h => (Returns (length h), h ++ [df]).

(** Reading a reference; every reference the code holds is to an object
    of the store (the empty frame stands for any other index). *)
Definition read_frame (ref : nat) : SE store DataFrame :=
  fun h => (Returns (default [] (h !! ref)), h).

Definition write_frame (ref : nat) (df : DataFrame) : SE store unit :=
  fun h => (Returns tt, <[ref := df]> h).

(** ** Transformer: [JikanDataExtractor.preprocess_anime_data] *)

Definition columns_to_keep : list string :=
  ["mal_id"; "url"; "title"; "title_english"; "type"; "episodes"; "status";
   "aired"; "rating"; "score"; "genres"; "themes"].

(** [except (ValueError, TypeError)]. *)
Definition is_ValueError_or_TypeError (e : exc) : bool :=
  match e with
  | ValueError | TypeError => true
  | _ => false
  end.

(** [[genre["name"] for genre in x] if isinstance(x, list) else []]. *)
Definition names_of (x : pyval) : pyresult pyval :=
  match x with
  | PList l => do names <- mapM (fun genre => getitem genre "name") l;
               Returns (PList names)
  | _ => Returns (PList [])
  end.

(** An item of [sep.join(...)]: it has to be a [str]. *)
Definition as_str (v : pyval) : pyresult string :=
  match v with
  | PStr s => Returns s
  | _ => Raises TypeError
  end.

(** [sep.join(x)]. *)
Definition str_join (sep : string) (x : pyval) : pyresult string :=
  do items <- py_iter x;
  do strs <- mapM as_str items;
  Returns (String.concat sep strs).

(** [", ".join(x) if x else ""]. *)
Definition join_names (x : pyval) : pyresult pyval :=
  if truthy x then do s <- str_join ", " x; Returns (PStr s)
  else Returns (PStr "").

Section Transformer.

(** [pd.to_datetime(v).date()] is pandas, outside this repository: what it
    returns or raises for a value is a parameter of the model. *)
Variable to_datetime_date : pyval -> pyresult date.

(** [process_dates], lines 108-124. *)
Definition process_dates (aired : pyval) : pyresult (pyval * pyval) :=
  match aired with
  | PDict d =>
    do start_date <-
      try_except
        (if truthy (dict_get d "from")
         then do x <- to_datetime_date (dict_get d "from"); Returns (PDate x)
         else Returns PNone)
        is_ValueError_or_TypeError PNone;
    do end_date <-
      try_except
        (if truthy (dict_get d "to")
         then do x <- to_datetime_date (dict_get d "to"); Returns (PDate x)
         else Returns (PStr "Ongoing"))
        is_ValueError_or_TypeError (PStr "Ongoing");
    Returns (start_date, end_date)
  | _ => Returns (PNone, PNone)
  end.

(** [processed_df[c]] read from the store. *)
Definition column_of (ref : nat) (c : string) : SE store (list pyval) :=
  doS df <- read_frame ref;
  lift (getitem_column df c).

(** [processed_df[c] = values], in place. *)
Definition assign_column (ref : nat) (c : string) (values : list pyval)
    : SE store unit :=
  doS df <- read_frame ref;
  write_frame ref (set_column df c values).

(** [processed_df[c].apply(f)]. *)
Definition apply_column {A} (ref : nat) (c : string) (f : pyval -> pyresult A)
    : SE store (list A) :=
  doS series <- column_of ref c;
  lift (mapM f series).

(** [preprocess_anime_data], lines 86-150: [df] and the frame returned are
    references into the store. *)
Definition preprocess_anime_data (df : nat) : SE store nat :=
  (* processed_df = df[columns_to_keep].copy() *)
  doS input <- read_frame df;
  doS selected <- lift (getitem_columns input columns_to_keep);
  doS selection <- new_frame selected;
  doS copied <- read_frame selection;
  doS processed_df <- new_frame copied;
  (* processed_df["episodes"] = processed_df["episodes"].fillna(0) *)
  doS episodes <- column_of processed_df "episodes";
  doS _ <- assign_column processed_df "episodes" (fillna episodes (PInt 0));
  (* processed_df[["start_date", "end_date"]] =
       processed_df["aired"].apply(lambda x: pd.Series(process_dates(x))) *)
  doS dates <- apply_column processed_df "aired" process_dates;
  doS _ <- assign_column processed_df "start_date" (map fst dates);
  doS _ <- assign_column processed_df "end_date" (map snd dates);
  (* genre and theme names *)
  doS genre_names <- apply_column processed_df "genres" names_of;
  doS _ <- assign_column processed_df "genre_names" genre_names;
  doS theme_names <- apply_column processed_df "themes" names_of;
  doS _ <- assign_column processed_df "theme_names" theme_names;
  (* lists to strings *)
  doS genre_strs <- apply_column processed_df "genre_names" join_names;
  doS _ <- assign_column processed_df "genre_names" genre_strs;
  doS theme_strs <- apply_column processed_df "theme_names" join_names;
  doS _ <- assign_column processed_df "theme_names" theme_strs;
  (* processed_df.drop(columns=["aired", "genres", "themes"], inplace=True) *)
  doS current <- read_frame processed_df;
  doS dropped <- lift (drop_columns current ["aired"; "genres"; "themes"]);
  doS _ <- write_frame processed_df dropped;
  ret processed_df.

End Transformer.

(** ** Loader: [JikanDataExtractor.load_to_postgres] *)

(** The non-key columns of table [anime], in the order of the statement. *)
Record anime_columns := {
  url : pyval;
  title : pyval;
  title_english : pyval;
  type : pyval;
  episodes : pyval;
  status : pyval;
  rating : pyval;
  score : pyval;
  start_date : pyval;
  end_date : pyval;
  genre_names : pyval;
  theme_names : pyval
}.

(** A connection or cursor object. *)
Inductive handle : Type := Open | Closed.

(** What a call of the loader can see and change. *)
Record loader_state := {
  anime : option (gmap Z anime_columns);
    (* committed rows of table anime by mal_id; None: no such table *)
  txn : option (gmap Z anime_columns);
    (* the table as the open transaction sees it *)
  conn : option handle;   (* local variable conn; None: not bound *)
  cur : option handle;    (* local variable cur; None: not bound *)
  log : list log_record
}.

(** The state at the call: the database as committed, no local bound. *)
Definition at_call (table : option (gmap Z anime_columns)) : loader_state :=
  {| anime := table; txn := None; conn := None; cur := None; log := [] |}.

Definition set_anime (t : option (gmap Z anime_columns)) (s : loader_state)
    : loader_state :=
  {| anime := t; txn := txn s; conn := conn s; cur := cur s; log := log s |}.

Definition set_txn (t : option (gmap Z anime_columns)) (s : loader_state)
    : loader_state :=
  {| anime := anime s; txn := t; conn := conn s; cur := cur s; log := log s |}.

Definition set_conn (c : option handle) (s : loader_state) : loader_state :=
  {| anime := anime s; txn := txn s; conn := c; cur := cur s; log := log s |}.

Definition set_cur (c : option handle) (s : loader_state) : loader_state :=
  {| anime := anime s; txn := txn s; conn := conn s; cur := c; log := log s |}.

Definition add_log (r : log_record) (s : loader_state) : loader_state :=
  {| anime := anime s; txn := txn s; conn := conn s; cur := cur s;
     log := log s ++ [r] |}.

(** A state change that cannot fail. *)
Definition modify {S} (f : S -> S) : SE S unit := fun s => (Returns tt, f s).

(** Failures that the database or the network injects into a call. *)
Record faults := {
  connect_fault : option exc;
  cursor_fault : option exc;
  create_table_fault : option exc;
  execute_fault : nat -> option exc;   (* by position in the batch *)
  commit_fault : option exc
}.

Definition no_faults : faults :=
  {| connect_fault := None; cursor_fault := None; create_table_fault := None;
     execute_fault := fun _ => None; commit_fault := None |}.

(** [INSERT ... ON CONFLICT (mal_id) DO UPDATE SET ...] for one row: a new
    key is inserted; on a conflict the existing row gets each column of
    the SET list from the proposed row ([EXCLUDED]). *)
Definition upsert (table : gmap Z anime_columns) (mal_id : Z)
    (excluded : anime_columns) : gmap Z anime_columns :=
  match table !! mal_id with
  | None => <[mal_id := excluded]> table
  | Some _ =>
    <[mal_id := {| url := url excluded;
                   title := title excluded;
                   title_english := title_english excluded;
                   type := type excluded;
                   episodes := episodes excluded;
                   status := status excluded;
                   rating := rating excluded;
                   score := score excluded;
                   start_date := start_date excluded;
                   end_date := end_date excluded;
                   genre_names := genre_names excluded;
                   theme_names := theme_names excluded |}]> table
  end.

Definition raise_fault {S} (f : option exc) : SE S unit :=
  match f with
  | Some e => raise e
  | None => ret tt
  end.

Section Loader.

(** The server's reading of the thirteen parameters of one statement as
    a row of [anime] (the key [mal_id] as INTEGER and the other columns),
    or the error it raises when the tuple does not fit the statement or
    a column.  PostgreSQL and psycopg2 are outside this repository. *)
Variable values_row : list pyval -> pyresult (Z * anime_columns).

Variable env : faults.

(** [conn = psycopg2.connect(...)]: a transaction starts on the
    committed table. *)
Definition connect : SE loader_state unit :=
  doS _ <- raise_fault (connect_fault env);
  modify (fun s => set_conn (Some Open) (set_txn (anime s) s)).

(** [cur = conn.cursor()]. *)
Definition cursor : SE loader_state unit :=
  doS _ <- raise_fault (cursor_fault env);
  modify (set_cur (Some Open)).

(** [cur.execute(create_table_query)]: CREATE TABLE IF NOT EXISTS. *)
Definition execute_create_table : SE loader_state unit :=
  doS _ <- raise_fault (create_table_fault env);
  modify (fun s => set_txn (Some (default ∅ (txn s))) s).

(** One statement of the batch. *)
Definition execute_insert (i : nat) (params : list pyval)
    : SE loader_state unit :=
  doS _ <- raise_fault (execute_fault env i);
  doS row <- lift (values_row params);
  modify (fun s =>
    set_txn (Some (upsert (default ∅ (txn s)) (fst row) (snd row))) s).

(** [cur.executemany(insert_query, data)]: the statement once per tuple,
    in order, stopping at the first error. *)
Fixpoint executemany (i : nat) (data : list (list pyval))
    : SE loader_state unit :=
  match data with
  | [] => ret tt
  | params :: data' =>
    doS _ <- execute_insert i params;
    executemany (S i) data'
  end.

(** [conn.commit()]. *)
Definition commit : SE loader_state unit :=
  doS _ <- raise_fault (commit_fault env);
  modify (fun s => set_anime (txn s) s).

(** The [try] block, lines 159-222. *)
Definition load_try (df : DataFrame) : SE loader_state unit :=
  doS _ <- connect;
  doS _ <- cursor;
  doS _ <- execute_create_table;
  doS _ <- executemany 0 (to_numpy df);
  doS _ <- commit;
  modify (add_log (InfoLoaded (length df))).

(** The [except (Exception, psycopg2.Error)] clause: log, then [raise]. *)
Definition load_except (e : exc) : SE loader_state unit :=
  doS _ <- modify (add_log (ErrorDatabaseLoading e));
  raise e.

(** [cur.close()]: reading an unbound local raises. *)
Definition cur_close : SE loader_state unit :=
  fun s =>
    match cur s with
    | None => (Raises UnboundLocalError, s)
    | Some _ => (Returns tt, set_cur (Some Closed) s)
    end.

(** [conn.close()]: what was not committed is rolled back. *)
Definition conn_close : SE loader_state unit :=
  fun s =>
    match conn s with
    | None => (Raises UnboundLocalError, s)
    | Some _ => (Returns tt, set_conn (Some Closed) (set_txn None s))
    end.

(** The [finally] block, lines 227-231: [if conn:] reads the local
    [conn]; a connection object is true. *)
Definition load_finally : SE loader_state unit :=
  fun s =>
    match conn s with
    | None => (Raises UnboundLocalError, s)
    | Some _ => (doS _ <- cur_close; conn_close) s
    end.

(** [load_to_postgres]: the [try] statement, then the implicit
    [return None].  An exception raised in [finally] replaces the one in
    flight. *)
Definition load_to_postgres (df : DataFrame) : SE loader_state pyval :=
  fun s =>
    let (r, s1) := load_try df s in
    let (r', s2) := match r with
                    | Returns _ => (Returns tt, s1)
                    | Raises e => load_except e s1
                    end in
    match load_finally s2 with
    | (Raises e, s3) => (Raises e, s3)
    | (Returns _, s3) =>
      match r' with
      | Returns _ => (Returns PNone, s3)
      | Raises e => (Raises e, s3)
      end
    end.

End Loader.

(** ** Concrete services and inputs

    Instances of the parameters above, used to run the model. *)

(** A 200 response whose body decodes to [body]. *)
Definition ok_response (body : pyval) : pyresult Response :=
  Returns {| status_code := 200; json := Returns body |}.

(** A catalogue served page by page: page [n] (from 1) holds the [n]-th
    list of entries as ["data"], later pages hold an empty list; a page
    below 1 is refused with status 400. *)
Definition catalogue (pages : list (list pyval)) : http :=
  fun page =>
    if page <? 1
    then Returns {| status_code := 400; json := Raises RequestsJSONDecodeError |}
    else ok_response
           (PDict [("data", PList (nth (Z.to_nat (page - 1)) pages []))]).

(** A service whose every request fails with [e]. *)
Definition unreachable (e : exc) : http := fun _ => Raises e.

(** A service whose bodies decode to [body] on every page. *)
Definition constant_body (body : pyval) : http := fun _ => ok_response body.

Definition digit (c : ascii) : option Z :=
  let n := Z.of_nat (nat_of_ascii c) in
  if (48 <=? n) && (n <=? 57) then Some (n - 48) else None.

Fixpoint digits (cs : list ascii) (acc : Z) : option Z :=
  match cs with
  | [] => Some acc
  | c :: cs' => match digit c with
                | Some d => digits cs' (10 * acc + d)
                | None => None
                end
  end.

(** A date parser for [YYYY-MM-DD] strings: [ValueError] for another
    string or a month or day out of range, [TypeError] for a value that is
    not a string. *)
Definition iso_date (v : pyval) : pyresult date :=
  match v with
  | PStr s =>
    match list_ascii_of_string s with
    | [y1; y2; y3; y4; s1; m1; m2; s2; d1; d2] =>
      match digits [y1; y2; y3; y4] 0, digits [m1; m2] 0, digits [d1; d2] 0 with
      | Some y, Some m, Some d =>
        if Ascii.eqb s1 "-" && Ascii.eqb s2 "-" &&
           (1 <=? m) && (m <=? 12) && (1 <=? d) && (d <=? 31)
        then Returns (mkdate y m d) else Raises ValueError
      | _, _, _ => Raises ValueError
      end
    | _ => Raises ValueError
    end
  | _ => Raises TypeError
  end.

(** A date parser that reads [YYYY-MM-DD] strings as [iso_date] does and
    fails on a dict the two ways pandas does: a mapping with [year],
    [month] and [day] columns is assembled into a Series, which has no
    method [date] ([AttributeError]); any other mapping lacks a required
    unit ([ValueError]). *)
Definition units_date (v : pyval) : pyresult date :=
  match v with
  | PDict d =>
    match dict_lookup d "year", dict_lookup d "month", dict_lookup d "day" with
    | Some (PList _), Some (PList _), Some (PList _) => Raises AttributeError
    | _, _, _ => Raises ValueError
    end
  | _ => iso_date v
  end.

(** A raw entry with the twelve projected fields. *)
Definition raw_entry (id : Z) (aired genres themes : pyval)
    : list (string * pyval) :=
  [("mal_id", PInt id); ("url", PStr "https://myanimelist.net/anime");
   ("title", PStr "Title"); ("title_english", PNone); ("type", PStr "TV");
   ("episodes", PNone); ("status", PStr "Finished Airing"); ("aired", aired);
   ("rating", PStr "PG-13"); ("score", PFloat (875 # 100));
   ("genres", genres); ("themes", themes)].

(** A server that takes thirteen parameters with an [int] key and stores
    the other twelve as they are. *)
Definition strict_values_row (params : list pyval)
    : pyresult (Z * anime_columns) :=
  match params with
  | [PInt k; c1; c2; c3; c4; c5; c6; c7; c8; c9; c10; c11; c12] =>
    Returns (k, {| url := c1; title := c2; title_english := c3; type := c4;
                   episodes := c5; status := c6; rating := c7; score := c8;
                   start_date := c9; end_date := c10; genre_names := c11;
                   theme_names := c12 |})
  | _ => Raises Psycopg2Error
  end.

(** ** Specification vocabulary for the extractor *)

(** The entries that a page adds to [all_anime] when it is fetched: the
    items of a true ["data"] value, nothing for an empty or failed page. *)
Definition page_entries (web : http) (page : Z) : list pyval :=
  match fetch_page web page with
  | Returns d =>
    if truthy d
    then match py_iter d with
         | Returns es => es
         | Raises _ => []
         end
    else []
  | Raises _ => []
  end.

(** The page numbers of the progress records of a trace, in order. *)
Fixpoint progress_pages (tr : list event) : list Z :=
  match tr with
  | [] => []
  | EvLog (InfoExtractedPage p _) :: tr' => p :: progress_pages tr'
  | _ :: tr' => progress_pages tr'
  end.

(** The end of one iteration, case by case. *)
Inductive iteration_spec (cfg : ApiExtraction) (web : http) (page : Z)
    (all_anime : list pyval) : list event * control -> Prop :=
  | it_sleep_raises :
      time_sleep (cfg_delay cfg) = Raises ValueError ->
      iteration_spec cfg web page all_anime ([], Propagate ValueError)
  | it_request_exception e :
      fetch_page web page = Raises e ->
      is_RequestException e = true ->
      iteration_spec cfg web page all_anime
        ([EvSleep (cfg_delay cfg); EvGet page;
          EvLog (ErrorExtracting page e)], Break all_anime)
  | it_other_exception e :
      fetch_page web page = Raises e ->
      is_RequestException e = false ->
      iteration_spec cfg web page all_anime
        ([EvSleep (cfg_delay cfg); EvGet page], Propagate e)
  | it_empty d :
      fetch_page web page = Returns d ->
      truthy d = false ->
      iteration_spec cfg web page all_anime
        ([EvSleep (cfg_delay cfg); EvGet page], Break all_anime)
  | it_not_iterable d :
      fetch_page web page = Returns d ->
      truthy d = true ->
      py_iter d = Raises TypeError ->
      iteration_spec cfg web page all_anime
        ([EvSleep (cfg_delay cfg); EvGet page], Propagate TypeError)
  | it_cap d es :
      fetch_page web page = Returns d ->
      truthy d = true ->
      py_iter d = Returns es ->
      cfg_max_pages cfg <= page ->
      iteration_spec cfg web page all_anime
        ([EvSleep (cfg_delay cfg); EvGet page], Break (all_anime ++ es))
  | it_next d es :
      fetch_page web page = Returns d ->
      truthy d = true ->
      py_iter d = Returns es ->
      page < cfg_max_pages cfg ->
      time_sleep (cfg_delay cfg) = Returns tt ->
      iteration_spec cfg web page all_anime
        ([EvSleep (cfg_delay cfg); EvGet page;
          EvLog (InfoExtractedPage page (length (all_anime ++ es)))],
         Continue (page + 1) (all_anime ++ es)).

(** A configuration with [max_pages] set and the default delay. *)
Definition config_with_max_pages (n : Z) : ApiExtraction :=
  {| max_pages := Some n; rate_limit_delay := None |}.

(** A service whose first page holds [entries] and whose later pages
    answer 200 with a JSON object that has no ["data"] key. *)
Definition data_key_missing_after_first (entries : list pyval) : http :=
  fun page =>
    if page =? 1 then ok_response (PDict [("data", PList entries)])
    else ok_response (PDict [("status", PInt 429);
                             ("message", PStr "rate limited")]).

(** A service whose first page holds [entries] and whose later pages
    answer with status [status]. *)
Definition status_after_first (entries : list pyval) (status : Z) : http :=
  fun page =>
    if page =? 1 then ok_response (PDict [("data", PList entries)])
    else Returns {| status_code := status; json := Returns (PDict []) |}.

(** A request that fails in a way the [try] block sees as exception [e]:
    [requests.get] raises it, or the status is 4xx/5xx and
    [raise_for_status] raises [HTTPError], or the status passes and
    [.json()] raises it for the body. *)
Inductive request_failure (web : http) (page : Z) : exc -> Prop :=
  | network_failure e :
      web page = Raises e ->
      request_failure web page e
  | error_status response :
      web page = Returns response ->
      400 <= status_code response < 600 ->
      request_failure web page HTTPError
  | body_not_decoded response e :
      web page = Returns response ->
      ~ (400 <= status_code response < 600) ->
      json response = Raises e ->
      request_failure web page e.

(** A step that, run in a store of at least [n] objects, leaves those [n]
    objects as they are, and whose result, when it returns, satisfies
    [post]. *)
Definition keeps {A} (n : nat) (m : SE store A) (post : A -> Prop) : Prop :=
  forall s r s',
    (n <= length s)%nat ->
    m s = (r, s') ->
    (n <= length s')%nat /\
    (forall i, (i < n)%nat -> s' !! i = s !! i) /\
    (forall a, r = Returns a -> post a).

(** ** Specification vocabulary for the transformer *)

(** Row [r] has a cell under key [c]. *)
Definition has_key (r : list (string * pyval)) (c : string) : bool :=
  existsb (fun kv => String.eqb c (fst kv)) r.

(** The value of a result, [d] for a raise. *)
Definition result_or {A} (d : A) (r : pyresult A) : A :=
  match r with
  | Returns a => a
  | Raises _ => d
  end.

(** An element of a name list that is an object with a string ["name"]. *)
Definition named (g : pyval) : bool :=
  match getitem g "name" with
  | Returns (PStr _) => true
  | _ => false
  end.

(** Specification vocabulary for [process_dates]: the field [v] is
    present, its parse raises [e], and [e] is none of the classes that
    the [except] clauses name. *)
Definition parse_escapes (to_datetime_date : pyval -> pyresult date)
    (v : pyval) (e : exc) : Prop :=
  truthy v = true /\ to_datetime_date v = Raises e /\
  is_ValueError_or_TypeError e = false.

(** A [genres] or [themes] value that is not a list, or a list of
    objects with a string ["name"]. *)
Definition names_well_formed (v : pyval) : bool :=
  match v with
  | PList l => forallb named l
  | _ => true
  end.

(** The names of a [genres] or [themes] value joined with [", "]. *)
Definition names_string (v : pyval) : pyval :=
  result_or (PStr "") (join_names (result_or (PList []) (names_of v))).

(** The flat record of one raw entry, field by field: the nine scalar
    fields (a missing [episodes] as 0), the two dates and the two joined
    name lists. *)
Definition flat_record (to_datetime_date : pyval -> pyresult date)
    (r : list (string * pyval)) : list (string * pyval) :=
  let dates :=
    result_or (PNone, PNone) (process_dates to_datetime_date (cell r "aired")) in
  [("mal_id", cell r "mal_id");
   ("url", cell r "url");
   ("title", cell r "title");
   ("title_english", cell r "title_english");
   ("type", cell r "type");
   ("episodes", if isna (cell r "episodes") then PInt 0 else cell r "episodes");
   ("status", cell r "status");
   ("rating", cell r "rating");
   ("score", cell r "score");
   ("start_date", fst dates);
   ("end_date", snd dates);
   ("genre_names", names_string (cell r "genres"));
   ("theme_names", names_string (cell r "themes"))].

(** A frame of one entry with dates, two genres and no theme. *)
Definition example_frame : DataFrame :=
  pd_DataFrame
    [raw_entry 1
       (PDict [("from", PStr "2020-01-01"); ("to", PStr "2020-06-01")])
       (PList [PDict [("name", PStr "Action")];
               PDict [("name", PStr "Comedy")]])
       (PList [])].

(** A frame of one entry whose genre has no ["name"]. *)
Definition unnamed_genre_frame : DataFrame :=
  pd_DataFrame
    [raw_entry 1
       (PDict [("from", PStr "2020-01-01"); ("to", PNone)])
       (PList [PDict [("mal_id", PInt 1); ("type", PStr "anime")]])
       (PList [])].

(** ** Specification vocabulary for the loader *)

(** One row written into a table. *)
Definition upsert_row (table : gmap Z anime_columns)
    (row : Z * anime_columns) : gmap Z anime_columns :=
  upsert table (fst row) (snd row).

(** The columns of the last row of a batch with key [k]. *)
Fixpoint last_for (k : Z) (rows : list (Z * anime_columns))
    : option anime_columns :=
  match rows with
  | [] => None
  | (k', cols) :: rows' =>
    match last_for k rows' with
    | Some c => Some c
    | None => if k' =? k then Some cols else None
    end
  end.

(** The state that a successful call leaves. *)
Definition loaded (rows : list (Z * anime_columns))
    (table : option (gmap Z anime_columns)) (n : nat) : loader_state :=
  {| anime := Some (fold_left upsert_row rows (default ∅ table));
     txn := None; conn := Some Closed; cur := Some Closed;
     log := [InfoLoaded n] |}.

(** The connection is refused. *)
Definition connection_refused : faults :=
  {| connect_fault := Some Psycopg2Error; cursor_fault := None;
     create_table_fault := None; execute_fault := fun _ => None;
     commit_fault := None |}.

(** The connection opens and the cursor cannot be created. *)
Definition cursor_refused : faults :=
  {| connect_fault := None; cursor_fault := Some Psycopg2Error;
     create_table_fault := None; execute_fault := fun _ => None;
     commit_fault := None |}.

(** The table cannot be created. *)
Definition create_table_refused : faults :=
  {| connect_fault := None; cursor_fault := None;
     create_table_fault := Some Psycopg2Error; execute_fault := fun _ => None;
     commit_fault := None |}.

(** The flat records of the example frame. *)
Definition example_records : DataFrame :=
  map (flat_record iso_date) example_frame.

(** The rows that the server reads from the example records. *)
Definition example_rows : list (Z * anime_columns) :=
  [(1, {| url := PStr "https://myanimelist.net/anime";
          title := PStr "Title";
          title_english := PNone;
          type := PStr "TV";
          episodes := PInt 0;
          status := PStr "Finished Airing";
          rating := PStr "PG-13";
          score := PFloat (875 # 100);
          start_date := PDate (mkdate 2020 1 1);
          end_date := PDate (mkdate 2020 6 1);
          genre_names := PStr "Action, Comedy";
          theme_names := PStr "" |})].

(** * Theorems *)

(** ** Extractor *)

Lemma time_sleep_raises d e : time_sleep d = Raises e -> e = ValueError.
Proof. unfold time_sleep. destruct (Qle_bool 0 d); congruence. Qed.

Lemma py_iter_raises v e : py_iter v = Raises e -> e = TypeError.
Proof. destruct v; simpl; congruence. Qed.

Section ExtractorFacts.
Variables (cfg : ApiExtraction) (web : http).

Lemma iteration_cases page all_anime :
  iteration_spec cfg web page all_anime (iteration cfg web page all_anime).
Proof.
  unfold iteration, try_block.
  destruct (time_sleep (cfg_delay cfg)) as [[]|e] eqn:Hs.
  2:{ pose proof (time_sleep_raises _ _ Hs) as ->.
      now apply it_sleep_raises. }
  destruct (fetch_page web page) as [d|e] eqn:Hf.
  2:{ destruct (is_RequestException e) eqn:He.
      - now apply it_request_exception.
      - now apply it_other_exception. }
  destruct (truthy d) eqn:Ht; simpl.
  2:{ now apply it_empty with d. }
  unfold list_extend.
  destruct (py_iter d) as [es|e] eqn:Hi; simpl.
  2:{ pose proof (py_iter_raises _ _ Hi) as ->. simpl.
      now apply it_not_iterable with d. }
  destruct (page >=? cfg_max_pages cfg) eqn:Hc.
  - apply it_cap with d; auto. lia.
  - replace (page + 1 - 1) with page by lia.
    apply it_next with d; auto. lia.
Qed.

(** With one unit of fuel per page up to the cap the loop ends. *)
Lemma extract_loop_terminates fuel : forall page all_anime,
  Z.max 1 (cfg_max_pages cfg - page + 1) <= Z.of_nat fuel ->
  exists r tr, extract_loop cfg web fuel page all_anime = Some (r, tr).
Proof.
  induction fuel as [|fuel IH]; intros page acc Hfuel; [lia|].
  simpl.
  destruct (iteration_cases page acc)
    as [| | | | | |d es Hf Ht Hi Hc]; eauto.
  destruct (IH (page + 1) (acc ++ es)) as (r & tr & ->); [lia|].
  eauto.
Qed.

(** What a finished loop has requested and collected. *)
Lemma extract_loop_run fuel : forall page all_anime r tr,
  extract_loop cfg web fuel page all_anime = Some (r, tr) ->
  requests tr = seqZ page (Z.of_nat (length (requests tr))) /\
  Z.of_nat (length (requests tr)) <= Z.max 1 (cfg_max_pages cfg - page + 1) /\
  (forall p d, In p (requests tr) -> fetch_page web p = Returns d ->
     truthy d = false -> forall q, In q (requests tr) -> q <= p) /\
  (forall l, r = Returns l ->
     l = all_anime ++ flat_map (page_entries web) (requests tr)).
Proof.
  induction fuel as [|fuel IH]; intros page acc r tr Hrun; [discriminate|].
  simpl in Hrun.
  destruct (iteration_cases page acc) as
    [Hs|e Hf He|e Hf He|d Hf Ht|d Hf Ht Hi|d es Hf Ht Hi Hc|d es Hf Ht Hi Hc];
    try (injection Hrun as <- <-; simpl).
  - repeat split; try lia; try tauto. discriminate.
  - repeat split; try lia; try reflexivity.
    intros l [= <-]. unfold page_entries. rewrite Hf. simpl.
    now rewrite app_nil_r.
  - repeat split; try lia; try reflexivity. discriminate.
  - repeat split; try lia; try reflexivity.
    intros l [= <-]. unfold page_entries. rewrite Hf, Ht. simpl.
    now rewrite app_nil_r.
  - repeat split; try lia; try reflexivity. discriminate.
  - repeat split; try lia; try reflexivity.
    intros l [= <-]. unfold page_entries. rewrite Hf, Ht, Hi. simpl.
    now rewrite app_nil_r.
  - destruct (extract_loop cfg web fuel (page + 1) (acc ++ es))
      as [[r' tr']|] eqn:Hrec; [|discriminate].
    injection Hrun as <- <-.
    destruct (IH _ _ _ _ Hrec) as (Hseq & Hlen & Hstop & Hall).
    simpl.
    set (rest := requests tr') in *.
    assert (Hin : forall q, In q rest -> page + 1 <= q).
    { intros q Hq. rewrite Hseq in Hq.
      apply list_elem_of_In, elem_of_seqZ in Hq. lia. }
    repeat split.
    + rewrite (seqZ_cons page) by lia. f_equal.
      replace (Z.succ page) with (page + 1) by lia.
      replace (Z.pred (Z.of_nat (S (length rest))))
        with (Z.of_nat (length rest)) by lia.
      exact Hseq.
    + lia.
    + intros p d' [<-|Hp] Hf' Ht' q Hq.
      * congruence.
      * destruct Hq as [<-|Hq]; [specialize (Hin _ Hp); lia|].
        now apply (Hstop p d').
    + intros l ->. rewrite (Hall _ eq_refl).
      unfold page_entries at 2. rewrite Hf, Ht, Hi.
      now rewrite <- app_assoc.
Qed.

(** A loop that ends by raising: the sleep raised, or the last page
    raised something other than a [RequestException], or its data could
    not be iterated. *)
Lemma extract_loop_raises fuel : forall page all_anime e tr,
  extract_loop cfg web fuel page all_anime = Some (Raises e, tr) ->
  time_sleep (cfg_delay cfg) = Raises e \/
  exists p, In p (requests tr) /\
    ((fetch_page web p = Raises e /\ is_RequestException e = false) \/
     (exists d, fetch_page web p = Returns d /\ truthy d = true /\
                py_iter d = Raises e)).
Proof.
  induction fuel as [|fuel IH]; intros page acc e0 tr Hrun; [discriminate|].
  simpl in Hrun.
  destruct (iteration_cases page acc) as
    [Hs|e Hf He|e Hf He|d Hf Ht|d Hf Ht Hi|d es Hf Ht Hi Hc|d es Hf Ht Hi Hc];
    try discriminate Hrun; try (injection Hrun as ? ?; subst; simpl).
  - now left.
  - right. exists page. split; [now left|]. now left.
  - right. exists page. split; [now left|]. right. now exists d.
  - destruct (extract_loop cfg web fuel (page + 1) (acc ++ es))
      as [[r' tr']|] eqn:Hrec; [|discriminate].
    injection Hrun as ? ?; subst.
    destruct (IH _ _ _ _ Hrec) as [Hs|(p & Hp & Hcase)]; [now left|].
    right. exists p. split; [|exact Hcase]. simpl. now right.
Qed.

(** A request that fails with a [RequestException] ends the loop: the
    error is the last thing logged, no later page is requested and the
    list is returned. *)
Lemma extract_loop_request_exception fuel :
  forall page all_anime r tr p e,
  extract_loop cfg web fuel page all_anime = Some (r, tr) ->
  In p (requests tr) ->
  fetch_page web p = Raises e ->
  is_RequestException e = true ->
  (exists l, r = Returns l) /\
  (exists tr0, tr = tr0 ++ [EvLog (ErrorExtracting p e)]) /\
  (forall q, In q (requests tr) -> q <= p).
Proof.
  induction fuel as [|fuel IH]; intros page acc r tr p e0 Hrun Hp Hfp Hreq;
    [discriminate|].
  simpl in Hrun.
  destruct (iteration_cases page acc) as
    [Hs|e Hf He|e Hf He|d Hf Ht|d Hf Ht Hi|d es Hf Ht Hi Hc|d es Hf Ht Hi Hc];
    try (injection Hrun as ? ?; subst; simpl in Hp);
    try (destruct Hp as [<-|[]]); try congruence.
  - contradiction.
  - assert (e = e0) as -> by congruence.
    split; [eauto|]. split.
    + now exists [EvSleep (cfg_delay cfg); EvGet page].
    + simpl. lia.
  - destruct (extract_loop cfg web fuel (page + 1) (acc ++ es))
      as [[r' tr']|] eqn:Hrec; [|discriminate].
    injection Hrun as ? ?; subst. simpl in Hp.
    destruct Hp as [<-|Hp]; [congruence|].
    destruct (IH _ _ _ _ _ _ Hrec Hp Hfp Hreq) as (Hret & (tr0 & ->) & Hlast).
    split; [exact Hret|]. split.
    + exists ([EvSleep (cfg_delay cfg); EvGet page;
               EvLog (InfoExtractedPage page (length (acc ++ es)))] ++ tr0).
      reflexivity.
    + simpl. intros q [<-|Hq]; [|now apply Hlast].
      destruct (extract_loop_run _ _ _ _ _ Hrec) as (Hseq & _).
      rewrite Hseq in Hp. apply list_elem_of_In, elem_of_seqZ in Hp. lia.
Qed.

(** A loop whose sleep returns requests its first page. *)
Lemma extract_loop_first_request fuel : forall page all_anime r tr,
  extract_loop cfg web fuel page all_anime = Some (r, tr) ->
  time_sleep (cfg_delay cfg) = Returns tt ->
  exists rest, requests tr = page :: rest.
Proof.
  destruct fuel as [|fuel]; intros page acc r tr Hrun Hsleep; [discriminate|].
  simpl in Hrun.
  destruct (iteration_cases page acc) as
    [Hs|e Hf He|e Hf He|d Hf Ht|d Hf Ht Hi|d es Hf Ht Hi Hc|d es Hf Ht Hi Hc];
    try (injection Hrun as ? ?; subst; simpl; eauto).
  - congruence.
  - destruct (extract_loop cfg web fuel (page + 1) (acc ++ es))
      as [[r' tr']|]; [|discriminate].
    injection Hrun as ? ?; subst. simpl. eauto.
Qed.

(** The progress records of a run are for the requested pages except the
    last one: the page after which the loop stops is never reported,
    also when it stops at the cap with the page appended. *)
Lemma extract_loop_progress fuel : forall page all_anime r tr,
  extract_loop cfg web fuel page all_anime = Some (r, tr) ->
  progress_pages tr = removelast (requests tr).
Proof.
  induction fuel as [|fuel IH]; intros page acc r tr Hrun; [discriminate|].
  simpl in Hrun.
  destruct (iteration_cases page acc) as
    [Hs|e Hf He|e Hf He|d Hf Ht|d Hf Ht Hi|d es Hf Ht Hi Hc
    |d es Hf Ht Hi Hc Hsleep];
    try (injection Hrun as ? ?; subst; reflexivity).
  destruct (extract_loop cfg web fuel (page + 1) (acc ++ es))
    as [[r' tr']|] eqn:Hrec; [|discriminate].
  injection Hrun as ? ?; subst.
  destruct (extract_loop_first_request _ _ _ _ _ Hrec) as (rest & Hrest);
    [assumption|].
  simpl. rewrite (IH _ _ _ _ Hrec), Hrest. reflexivity.
Qed.

End ExtractorFacts.

(** The entries of a page whose data is the list [es]. *)
Lemma page_entries_list web p es :
  fetch_page web p = Returns (PList es) -> page_entries web p = es.
Proof.
  intros Hf. unfold page_entries. rewrite Hf. now destruct es.
Qed.

(** C1. For a configured [max_pages = N >= 1], [extract_all_anime] ends
    (the loop does not run out of iterations), requests pages 1, 2, ... in
    order and at most [N] of them, requests no page after one whose data
    is empty, and a returned list is exactly the entries of the requested
    pages in order, so it includes the entries of every non-empty page
    fetched; when it raises instead of returning, the sleep raised or the
    last page raised outside [RequestException] or was not iterable. *)
Theorem extract_all_anime_page_cap (cfg : ApiExtraction) (web : http) (N : Z) :
  max_pages cfg = Some N ->
  1 <= N ->
  exists r tr,
    extract_all_anime cfg web = Some (r, tr) /\
    Z.of_nat (length (requests tr)) <= N /\
    requests tr = seqZ 1 (Z.of_nat (length (requests tr))) /\
    (forall p d, In p (requests tr) -> fetch_page web p = Returns d ->
       truthy d = false -> forall q, In q (requests tr) -> q <= p) /\
    (forall l, r = Returns l ->
       l = flat_map (page_entries web) (requests tr) /\
       forall p es x, In p (requests tr) ->
         fetch_page web p = Returns (PList es) -> In x es -> In x l) /\
    (forall e, r = Raises e ->
       time_sleep (cfg_delay cfg) = Raises e \/
       exists p, In p (requests tr) /\
         ((fetch_page web p = Raises e /\ is_RequestException e = false) \/
          (exists d, fetch_page web p = Returns d /\ truthy d = true /\
                     py_iter d = Raises e))).
Proof.
  intros Hcfg HN.
  assert (Hmax : cfg_max_pages cfg = N) by (unfold cfg_max_pages; now rewrite Hcfg).
  unfold extract_all_anime.
  destruct (extract_loop_terminates cfg web
              (Z.to_nat (Z.max 1 (cfg_max_pages cfg))) 1 [])
    as (r & tr & Hrun); [lia|].
  exists r, tr. split; [exact Hrun|].
  destruct (extract_loop_run _ _ _ _ _ _ _ Hrun) as (Hseq & Hlen & Hstop & Hall).
  split; [lia|]. split; [exact Hseq|]. split; [exact Hstop|]. split.
  - intros l Hl. pose proof (Hall l Hl) as Heq. simpl in Heq.
    split; [exact Heq|].
    intros p es x Hp Hf Hx. rewrite Heq. apply in_flat_map.
    exists p. split; [exact Hp|]. now rewrite (page_entries_list _ _ _ Hf).
  - intros e ->. exact (extract_loop_raises _ _ _ _ _ _ _ Hrun).
Qed.

(** Three pages of entries under a cap of two: two requests, the entries
    of pages 1 and 2 returned. *)
Lemma extract_all_anime_page_cap_witness :
  max_pages (config_with_max_pages 2) = Some 2 /\
  1 <= 2 /\
  exists r tr,
    extract_all_anime (config_with_max_pages 2)
      (catalogue [[PInt 1; PInt 2]; [PInt 3]; [PInt 4]]) = Some (r, tr) /\
    r = Returns [PInt 1; PInt 2; PInt 3] /\
    requests tr = [1; 2].
Proof.
  split; [reflexivity|]. split; [lia|].
  destruct (extract_all_anime_page_cap (config_with_max_pages 2)
              (catalogue [[PInt 1; PInt 2]; [PInt 3]; [PInt 4]]) 2)
    as (r & tr & Hrun & _); [reflexivity|lia|].
  exists r, tr. split; [exact Hrun|].
  vm_compute in Hrun. injection Hrun as <- <-. split; reflexivity.
Defined.

Lemma request_failure_fetch web p e :
  request_failure web p e -> fetch_page web p = Raises e.
Proof.
  intros [e' Hw|resp Hw Hst|resp e' Hw Hst Hj]; unfold fetch_page;
    rewrite Hw; simpl; unfold raise_for_status.
  - reflexivity.
  - replace ((400 <=? status_code resp) && (status_code resp <? 600))
      with true by (symmetry; apply andb_true_iff; lia).
    reflexivity.
  - replace ((400 <=? status_code resp) && (status_code resp <? 600))
      with false by (symmetry; apply andb_false_iff; lia).
    simpl. now rewrite Hj.
Qed.




(** C8. With [max_pages = 2] and two non-empty pages, both pages are
    fetched and appended, yet the only progress record is the one for
    page 1; with [max_pages = 1] the page is appended and nothing is
    logged.  The [break] at the cap comes before [logger.info], so the
    page fetched at the cap gets no record; in every run the progress
    records are for the requested pages except the last. *)
Theorem extract_all_anime_cap_page_not_logged :
  (exists tr,
     extract_all_anime (config_with_max_pages 2)
       (catalogue [[PInt 1; PInt 2]; [PInt 3]])
     = Some (Returns [PInt 1; PInt 2; PInt 3], tr) /\
     requests tr = [1; 2] /\
     logged tr = [InfoExtractedPage 1 2]) /\
  (exists tr,
     extract_all_anime (config_with_max_pages 1)
       (catalogue [[PInt 1; PInt 2]])
     = Some (Returns [PInt 1; PInt 2], tr) /\
     requests tr = [1] /\
     logged tr = []) /\
  (forall cfg web, exists r tr,
     extract_all_anime cfg web = Some (r, tr) /\
     progress_pages tr = removelast (requests tr)).
Proof.
  split; [eexists; repeat split|].
  split; [eexists; repeat split|].
  intros cfg web. unfold extract_all_anime.
  destruct (extract_loop_terminates cfg web
              (Z.to_nat (Z.max 1 (cfg_max_pages cfg))) 1 [])
    as (r & tr & Hrun); [lia|].
  exists r, tr. split; [exact Hrun|].
  exact (extract_loop_progress _ _ _ _ _ _ _ Hrun).
Qed.

(** ** Transformer: date derivation *)

Lemma try_except_returns {A} (body : pyresult A) classes handler :
  (forall e, body = Raises e -> classes e = true) ->
  exists a, try_except body classes handler = Returns a /\
            (forall x, body = Returns x -> a = x) /\
            (forall e, body = Raises e -> a = handler).
Proof.
  intros Hcaught. unfold try_except. destruct body as [x|e].
  - exists x. repeat split; congruence.
  - rewrite (Hcaught e eq_refl). exists handler. repeat split; congruence.
Qed.

Lemma iso_date_raises v e :
  iso_date v = Raises e -> is_ValueError_or_TypeError e = true.
Proof.
  unfold iso_date. intros H.
  repeat case_match; try discriminate; injection H as <-; reflexivity.
Qed.

(** [process_dates] on a dict raises exactly when the parse of a present
    field raises outside the classes caught: the exception of [from] if
    there is one, else the one of [to]. *)
Lemma process_dates_raises_iff
    (to_datetime_date : pyval -> pyresult date)
    (d : list (string * pyval)) (e : exc) :
  process_dates to_datetime_date (PDict d) = Raises e <->
  parse_escapes to_datetime_date (dict_get d "from") e \/
  ((forall e', ~ parse_escapes to_datetime_date (dict_get d "from") e') /\
   parse_escapes to_datetime_date (dict_get d "to") e).
Proof.
  unfold parse_escapes, process_dates. split.
  - intros Hrun.
    destruct (truthy (dict_get d "from")) eqn:Hf.
    + destruct (to_datetime_date (dict_get d "from")) as [x|e1] eqn:Hp1;
        simpl in Hrun.
      * right. split; [intros e' (_ & He' & _); discriminate|].
        destruct (truthy (dict_get d "to")); [|discriminate].
        destruct (to_datetime_date (dict_get d "to")) as [y|e2];
          simpl in Hrun; [discriminate|].
        destruct (is_ValueError_or_TypeError e2) eqn:Hc; [discriminate|].
        injection Hrun as <-. auto.
      * destruct (is_ValueError_or_TypeError e1) eqn:Hc1; simpl in Hrun.
        -- right. split; [intros e' (_ & He' & Hc'); congruence|].
           destruct (truthy (dict_get d "to")); [|discriminate].
           destruct (to_datetime_date (dict_get d "to")) as [y|e2];
             simpl in Hrun; [discriminate|].
           destruct (is_ValueError_or_TypeError e2) eqn:Hc; [discriminate|].
           injection Hrun as <-. auto.
        -- injection Hrun as <-. left. auto.
    + simpl in Hrun.
      right. split; [intros e' (Ht & _); discriminate|].
      destruct (truthy (dict_get d "to")); [|discriminate].
      destruct (to_datetime_date (dict_get d "to")) as [y|e2];
        simpl in Hrun; [discriminate|].
      destruct (is_ValueError_or_TypeError e2) eqn:Hc; [discriminate|].
      injection Hrun as <-. auto.
  - intros [(Ht & Hp & Hc)|(Hfrom & Ht & Hp & Hc)].
    + rewrite Ht, Hp. simpl. now rewrite Hc.
    + destruct (truthy (dict_get d "from")) eqn:Hf.
      * destruct (to_datetime_date (dict_get d "from")) as [x|e1] eqn:Hp1;
          simpl.
        -- rewrite Ht, Hp. simpl. now rewrite Hc.
        -- destruct (is_ValueError_or_TypeError e1) eqn:Hc1.
           ++ simpl. rewrite Ht, Hp. simpl. now rewrite Hc.
           ++ exfalso. apply (Hfrom e1). auto.
      * simpl. rewrite Ht, Hp. simpl. now rewrite Hc.
Qed.

(** A field whose parse does not escape is handled by its [try]
    statement: the body raises only what the [except] clause names. *)
Lemma parse_caught (to_datetime_date : pyval -> pyresult date)
    (v absent : pyval) :
  (forall e, ~ parse_escapes to_datetime_date v e) ->
  forall e,
    (if truthy v
     then do x <- to_datetime_date v; Returns (PDate x)
     else Returns absent) = Raises e ->
    is_ValueError_or_TypeError e = true.
Proof.
  intros Hno e. destruct (truthy v) eqn:Ht; [|discriminate].
  destruct (to_datetime_date v) as [x|e'] eqn:Hp; simpl; [discriminate|].
  intros [= <-].
  destruct (is_ValueError_or_TypeError e') eqn:Hc; [reflexivity|].
  destruct (Hno e'). repeat split; assumption.
Qed.

(** C2, as the claim states it, fails: a parse failure can raise.  Here
    [from] holds a mapping of unit columns; its parse raises
    [AttributeError], which [except (ValueError, TypeError)] does not
    name, and [process_dates] raises it although [to] is a good date. *)
Lemma process_dates_parse_failure_raises :
  units_date (PDict [("year", PList [PInt 2020]); ("month", PList [PInt 1]);
                     ("day", PList [PInt 1])])
  = Raises AttributeError /\
  process_dates units_date
    (PDict [("from", PDict [("year", PList [PInt 2020]);
                            ("month", PList [PInt 1]);
                            ("day", PList [PInt 1])]);
            ("to", PStr "2020-06-01")])
  = Raises AttributeError.
Proof. split; reflexivity. Qed.

(** C2, amended. For every date parser and every value [aired]: when
    [aired] is not a dict, [process_dates] returns [None] for both
    dates.  When it is a dict, [process_dates] raises exactly when the
    parse of a present field ([from] first, then [to]) raises something
    other than [ValueError] or [TypeError], and it raises that
    exception.  Otherwise it returns: [start_date] is the parsed date of
    [from] when that field is present (holds a true value) and parses,
    and [None] when it is absent or its parse fails; [end_date] is the
    parsed date of [to] when present and parsed, and ["Ongoing"] when it
    is absent or its parse fails.  In particular the two examples of
    the specification hold for any parser that reads the two strings. *)
Theorem process_dates_derivation
    (to_datetime_date : pyval -> pyresult date) (aired : pyval) :
  ((forall d, aired <> PDict d) ->
     process_dates to_datetime_date aired = Returns (PNone, PNone)) /\
  (forall d, aired = PDict d ->
     (forall e,
        process_dates to_datetime_date aired = Raises e <->
        parse_escapes to_datetime_date (dict_get d "from") e \/
        ((forall e', ~ parse_escapes to_datetime_date (dict_get d "from") e') /\
         parse_escapes to_datetime_date (dict_get d "to") e)) /\
     ((forall e, ~ parse_escapes to_datetime_date (dict_get d "from") e) ->
      (forall e, ~ parse_escapes to_datetime_date (dict_get d "to") e) ->
      exists start_date end_date,
        process_dates to_datetime_date aired
        = Returns (start_date, end_date) /\
        (forall x, truthy (dict_get d "from") = true ->
           to_datetime_date (dict_get d "from") = Returns x ->
           start_date = PDate x) /\
        (truthy (dict_get d "from") = false \/
         (exists e, to_datetime_date (dict_get d "from") = Raises e) ->
           start_date = PNone) /\
        (forall x, truthy (dict_get d "to") = true ->
           to_datetime_date (dict_get d "to") = Returns x ->
           end_date = PDate x) /\
        (truthy (dict_get d "to") = false \/
         (exists e, to_datetime_date (dict_get d "to") = Raises e) ->
           end_date = PStr "Ongoing"))) /\
  (forall x y,
     to_datetime_date (PStr "2020-01-01") = Returns x ->
     to_datetime_date (PStr "2020-06-01") = Returns y ->
     process_dates to_datetime_date
       (PDict [("from", PStr "2020-01-01"); ("to", PStr "2020-06-01")])
     = Returns (PDate x, PDate y) /\
     process_dates to_datetime_date (PDict [("from", PStr "2020-01-01")])
     = Returns (PDate x, PStr "Ongoing")).
Proof.
  split; [|split].
  - intros Hnot. destruct aired; try reflexivity. now destruct (Hnot d).
  - intros d ->. split; [intros e; apply process_dates_raises_iff|].
    intros Hfrom Hto. unfold process_dates.
    set (from := dict_get d "from") in *. set (to := dict_get d "to") in *.
    destruct (try_except_returns
      (if truthy from
       then do x <- to_datetime_date from; Returns (PDate x)
       else Returns PNone) is_ValueError_or_TypeError PNone
      (parse_caught to_datetime_date from PNone Hfrom))
      as (s & Hs & Hs_ok & Hs_fail).
    destruct (try_except_returns
      (if truthy to
       then do x <- to_datetime_date to; Returns (PDate x)
       else Returns (PStr "Ongoing")) is_ValueError_or_TypeError
      (PStr "Ongoing")
      (parse_caught to_datetime_date to (PStr "Ongoing") Hto))
      as (t & Ht & Ht_ok & Ht_fail).
    exists s, t. rewrite Hs, Ht. simpl. split; [reflexivity|].
    repeat split.
    + intros x Htrue Hx. apply Hs_ok. now rewrite Htrue, Hx.
    + intros [Hfalse|(e & He)].
      * apply Hs_ok. now rewrite Hfalse.
      * destruct (truthy from); [|now apply Hs_ok].
        apply (Hs_fail e). now rewrite He.
    + intros x Htrue Hx. apply Ht_ok. now rewrite Htrue, Hx.
    + intros [Hfalse|(e & He)].
      * apply Ht_ok. now rewrite Hfalse.
      * destruct (truthy to); [|now apply Ht_ok].
        apply (Ht_fail e). now rewrite He.
  - intros x y Hx Hy. unfold process_dates, dict_get. simpl.
    rewrite Hx, Hy. split; reflexivity.
Qed.

(** The examples of the specification with [iso_date], and a [to] that
    does not parse. *)
Lemma process_dates_derivation_witness :
  process_dates iso_date
    (PDict [("from", PStr "2020-01-01"); ("to", PStr "2020-06-01")])
  = Returns (PDate (mkdate 2020 1 1), PDate (mkdate 2020 6 1)) /\
  process_dates iso_date (PDict [("from", PStr "2020-01-01")])
  = Returns (PDate (mkdate 2020 1 1), PStr "Ongoing").
Proof.
  exact (proj2 (proj2 (process_dates_derivation iso_date PNone))
           _ _ eq_refl eq_refl).
Defined.

(** ** Transformer: the objects in the store *)

Lemma keeps_bind {A B} n (m : SE store A) (k : A -> SE store B) P Q :
  keeps n m P -> (forall a, P a -> keeps n (k a) Q) -> keeps n (bindS m k) Q.
Proof.
  intros Hm Hk s r s' Hn Hrun. unfold bindS in Hrun.
  destruct (m s) as [[a|e] s1] eqn:Hms.
  - destruct (Hm _ _ _ Hn Hms) as (Hn1 & Hsame1 & Hpost).
    destruct (Hk a (Hpost a eq_refl) _ _ _ Hn1 Hrun) as (Hn2 & Hsame2 & HQ).
    split; [exact Hn2|]. split; [|exact HQ].
    intros i Hi. now rewrite Hsame2, Hsame1.
  - injection Hrun as <- <-.
    destruct (Hm _ _ _ Hn Hms) as (Hn1 & Hsame1 & _).
    repeat split; try assumption. discriminate.
Qed.

Lemma keeps_ret {A} n (a : A) (P : A -> Prop) : P a -> keeps n (ret a) P.
Proof.
  intros HP s r s' Hn [= <- <-]. repeat split; try assumption.
  now intros a' [= <-].
Qed.

Lemma keeps_lift {A} n (r : pyresult A) : keeps n (lift r) (fun _ => True).
Proof. intros s r' s' Hn [= <- <-]. repeat split; assumption. Qed.

Lemma keeps_read_frame n ref : keeps n (read_frame ref) (fun _ => True).
Proof. intros s r' s' Hn [= <- <-]. repeat split; assumption. Qed.

Lemma keeps_new_frame n df : keeps n (new_frame df) (fun ref => (n <= ref)%nat).
Proof.
  intros s r s' Hn [= <- <-]. rewrite length_app. simpl.
  split; [lia|]. split.
  - intros i Hi. apply lookup_app_l. lia.
  - now intros a [= <-].
Qed.

Lemma keeps_write_frame n ref df :
  (n <= ref)%nat -> keeps n (write_frame ref df) (fun _ => True).
Proof.
  intros Href s r s' Hn [= <- <-]. rewrite length_insert.
  split; [exact Hn|]. split; [|trivial].
  intros i Hi. apply list_lookup_insert_ne. lia.
Qed.

Create HintDb keeps.

#[local] Hint Resolve keeps_lift keeps_read_frame keeps_new_frame
  keeps_write_frame : keeps.

Lemma keeps_column_of n ref c : keeps n (column_of ref c) (fun _ => True).
Proof. unfold column_of. eapply keeps_bind; eauto with keeps. Qed.

Lemma keeps_assign_column n ref c values :
  (n <= ref)%nat -> keeps n (assign_column ref c values) (fun _ => True).
Proof.
  intros Href. unfold assign_column. eapply keeps_bind; eauto with keeps.
Qed.

Lemma keeps_apply_column {A} n ref c (f : pyval -> pyresult A) :
  keeps n (apply_column ref c f) (fun _ => True).
Proof.
  unfold apply_column. eapply keeps_bind; [apply keeps_column_of|].
  eauto with keeps.
Qed.

#[local] Hint Resolve keeps_column_of keeps_assign_column
  keeps_apply_column : keeps.

(** The whole transformer keeps the frames that exist at the call; the
    frame it returns is a later object. *)
Lemma preprocess_anime_data_keeps to_datetime_date n df :
  keeps n (preprocess_anime_data to_datetime_date df)
    (fun out => (n <= out)%nat).
Proof.
  unfold preprocess_anime_data.
  do 4 (eapply keeps_bind; [solve [eauto with keeps]|intros ? _]).
  eapply keeps_bind; [apply keeps_new_frame|]. intros processed_df Hfresh.
  repeat (eapply keeps_bind; [solve [eauto with keeps]|intros ? _]).
  now apply keeps_ret.
Qed.

(** C9. Whatever [preprocess_anime_data] does, returning or raising, the
    frame that the caller passed is the same object with the same
    contents afterwards (as is every other frame that existed at the
    call), and a returned frame is a new object. *)
Theorem preprocess_anime_data_leaves_input
    (to_datetime_date : pyval -> pyresult date)
    (h : store) (df : nat) (input : DataFrame)
    (r : pyresult nat) (h' : store) :
  h !! df = Some input ->
  preprocess_anime_data to_datetime_date df h = (r, h') ->
  h' !! df = Some input /\
  (forall ref, (ref < length h)%nat -> h' !! ref = h !! ref) /\
  (forall out, r = Returns out -> (length h <= out)%nat /\ out <> df).
Proof.
  intros Hdf Hrun.
  destruct (preprocess_anime_data_keeps to_datetime_date (length h) df
              h r h' (le_n _) Hrun) as (_ & Hsame & Hout).
  assert (Hlt : (df < length h)%nat) by (eapply lookup_lt_Some; eassumption).
  split; [now rewrite Hsame|]. split; [exact Hsame|].
  intros out Hr. specialize (Hout out Hr). simpl in Hout. lia.
Qed.

(** One entry, preprocessed: the input frame is still at reference 0. *)
Lemma preprocess_anime_data_leaves_input_witness :
  [example_frame] !! 0%nat = Some example_frame /\
  snd (preprocess_anime_data iso_date 0 [example_frame]) !! 0%nat
  = Some example_frame.
Proof.
  split; [reflexivity|].
  destruct (preprocess_anime_data iso_date 0 [example_frame]) as [r h'] eqn:Hrun.
  exact (proj1 (preprocess_anime_data_leaves_input iso_date [example_frame]
                  0 example_frame r h' eq_refl Hrun)).
Defined.

(** ** Transformer: one record per entry *)

Lemma has_column_app cols1 cols2 c :
  has_column (cols1 ++ cols2) c = has_column cols1 c || has_column cols2 c.
Proof. unfold has_column. apply existsb_app. Qed.

Lemma has_column_add_keys r : forall cols c,
  has_column (add_keys cols r) c = has_column cols c || has_key r c.
Proof.
  induction r as [|[k v] r IH]; intros cols c; simpl.
  - now rewrite orb_false_r.
  - rewrite IH. destruct (has_column cols k) eqn:Hk.
    + destruct (String.eqb c k) eqn:Hck; simpl; [|reflexivity].
      apply String.eqb_eq in Hck. subst k. now rewrite Hk.
    + rewrite has_column_app. simpl. rewrite orb_false_r.
      now rewrite orb_assoc.
Qed.

(** A label is a column when some row has it as a key. *)
Lemma has_column_columns df c :
  has_column (columns df) c = existsb (fun r => has_key r c) df.
Proof.
  unfold columns.
  assert (H : forall cols,
    has_column (fold_left add_keys df cols) c
    = has_column cols c || existsb (fun r => has_key r c) df).
  { induction df as [|r df IH]; intros cols; simpl.
    - now rewrite orb_false_r.
    - rewrite IH, has_column_add_keys. now rewrite orb_assoc. }
  now rewrite H.
Qed.

Lemma set_column_map {A} (row : A -> list (string * pyval)) (g : A -> pyval)
    c (xs : list A) :
  set_column (map row xs) c (map g xs)
  = map (fun x => row_set (row x) c (g x)) xs.
Proof. induction xs as [|x xs IH]; simpl; [reflexivity|]. now rewrite IH. Qed.

(** The last object of the store, read and written through its
    reference. *)
Lemma read_frame_last (h : store) df :
  read_frame (length h) (h ++ [df]) = (Returns df, h ++ [df]).
Proof.
  unfold read_frame. now rewrite list_lookup_middle.
Qed.

Lemma write_frame_last (h : store) df df' :
  write_frame (length h) df' (h ++ [df]) = (Returns tt, h ++ [df']).
Proof.
  unfold write_frame. f_equal.
  induction h as [|x h IH]; simpl; [reflexivity|]. now rewrite IH.
Qed.

Lemma bindS_returns {S A B} (m : SE S A) (k : A -> SE S B) s a s' :
  m s = (Returns a, s') -> bindS m k s = k a s'.
Proof. intros H. unfold bindS. now rewrite H. Qed.

Lemma column_of_last (h : store) df c series :
  getitem_column df c = Returns series ->
  column_of (length h) c (h ++ [df]) = (Returns series, h ++ [df]).
Proof.
  intros H. unfold column_of.
  rewrite (bindS_returns _ _ _ _ _ (read_frame_last h df)).
  unfold lift. now rewrite H.
Qed.

Lemma assign_column_last (h : store) df c values :
  assign_column (length h) c values (h ++ [df])
  = (Returns tt, h ++ [set_column df c values]).
Proof.
  unfold assign_column.
  rewrite (bindS_returns _ _ _ _ _ (read_frame_last h df)).
  apply write_frame_last.
Qed.

Lemma apply_column_last {A} (h : store) df c (f : pyval -> pyresult A)
    series ys :
  getitem_column df c = Returns series ->
  mapM f series = Returns ys ->
  apply_column (length h) c f (h ++ [df]) = (Returns ys, h ++ [df]).
Proof.
  intros Hc Hf. unfold apply_column.
  rewrite (bindS_returns _ _ _ _ _ (column_of_last h df c series Hc)).
  unfold lift. now rewrite Hf.
Qed.

(** The column [c] of a frame whose rows all have the key. *)
Lemma getitem_column_map {A} (row : A -> list (string * pyval)) c (xs : list A) :
  xs <> [] ->
  (forall x, has_key (row x) c = true) ->
  getitem_column (map row xs) c = Returns (map (fun x => cell (row x) c) xs).
Proof.
  intros Hne Hkey. unfold getitem_column.
  rewrite has_column_columns.
  destruct xs as [|x xs]; [contradiction|]. simpl.
  rewrite Hkey. simpl. now rewrite map_map.
Qed.

Lemma names_of_well_formed v :
  names_well_formed v = true ->
  exists names, names_of v = Returns (PList (map PStr names)).
Proof.
  destruct v as [| | | | | |l| |]; try (exists []; reflexivity).
  simpl. intros Hall.
  assert (H : exists names,
    mapM (fun genre => getitem genre "name") l = Returns (map PStr names)).
  { induction l as [|g l IH]; [now exists []|].
    simpl in Hall. apply andb_true_iff in Hall as [Hg Hl].
    destruct (IH Hl) as (names & Hnames).
    unfold named in Hg. simpl.
    destruct (getitem g "name") as [[| | | | |s| | |]|]; try discriminate.
    simpl. rewrite Hnames. now exists (s :: names). }
  destruct H as (names & ->). now exists names.
Qed.

Lemma join_names_strings names :
  exists s, join_names (PList (map PStr names)) = Returns (PStr s).
Proof.
  unfold join_names. destruct names as [|n names]; [now exists ""|].
  cbn [truthy map]. unfold str_join. cbn [py_iter bind].
  assert (H : forall l, mapM as_str (map PStr l) = Returns l).
  { induction l as [|x l IH]; simpl; [reflexivity|]. now rewrite IH. }
  change (PStr n :: map PStr names) with (map PStr (n :: names)).
  rewrite H. simpl. eauto.
Qed.

Lemma mapM_map_returns {A B C} (f : B -> pyresult C) (g : A -> B) (d : C)
    (xs : list A) :
  (forall x, In x xs -> exists y, f (g x) = Returns y) ->
  mapM f (map g xs) = Returns (map (fun x => result_or d (f (g x))) xs).
Proof.
  induction xs as [|x xs IH]; intros Hall; simpl; [reflexivity|].
  destruct (Hall x (or_introl eq_refl)) as (y & Hy).
  rewrite Hy, IH; [reflexivity|].
  intros x' Hx'. apply Hall. now right.
Qed.

Lemma drop_columns_map {A} (row : A -> list (string * pyval)) cols
    (xs : list A) :
  xs <> [] ->
  (forall x, forallb (has_key (row x)) cols = true) ->
  drop_columns (map row xs) cols
  = Returns (map (fun x => List.filter
                             (fun kv => negb (has_column cols (fst kv)))
                             (row x)) xs).
Proof.
  intros Hne Hkeys. unfold drop_columns.
  destruct xs as [|x xs]; [contradiction|].
  replace (forallb (has_column (columns (map row (x :: xs)))) cols) with true.
  - now rewrite map_map.
  - symmetry. apply forallb_forall. intros c Hc.
    rewrite has_column_columns. simpl.
    pose proof (Hkeys x) as Hx.
    rewrite forallb_forall in Hx. now rewrite (Hx c Hc).
Qed.

Lemma process_dates_returns to_datetime_date :
  (forall v e, to_datetime_date v = Raises e ->
               is_ValueError_or_TypeError e = true) ->
  forall aired, exists dates,
    process_dates to_datetime_date aired = Returns dates.
Proof.
  intros Hparse aired.
  destruct aired as [| | | | | |l|d|dt]; try (eexists; reflexivity).
  unfold process_dates.
  destruct (try_except_returns
    (if truthy (dict_get d "from")
     then do x <- to_datetime_date (dict_get d "from"); Returns (PDate x)
     else Returns PNone) is_ValueError_or_TypeError PNone)
    as (s & -> & _).
  { intros e. destruct (truthy (dict_get d "from")); [|discriminate].
    destruct (to_datetime_date (dict_get d "from")) eqn:Hp; simpl;
      [discriminate|].
    intros [= <-]. eauto. }
  destruct (try_except_returns
    (if truthy (dict_get d "to")
     then do x <- to_datetime_date (dict_get d "to"); Returns (PDate x)
     else Returns (PStr "Ongoing"))
    is_ValueError_or_TypeError (PStr "Ongoing"))
    as (t & -> & _).
  { intros e. destruct (truthy (dict_get d "to")); [|discriminate].
    destruct (to_datetime_date (dict_get d "to")) eqn:Hp; simpl;
      [discriminate|].
    intros [= <-]. eauto. }
  simpl. eauto.
Qed.

(** The names of a well-formed value join to a string. *)
Lemma join_names_well_formed v :
  names_well_formed v = true ->
  exists joined,
    join_names (result_or (PList []) (names_of v)) = Returns (PStr joined).
Proof.
  intros Hv. destruct (names_of_well_formed v Hv) as (names & ->).
  apply join_names_strings.
Qed.

(** One step of the transformer on the frame under construction, which
    is the last object of the store. *)
Ltac step tac := erewrite bindS_returns by tac.

(** A column of a frame of rows that all have the label. *)
Ltac column_present nonempty :=
  apply getitem_column_map; [exact nonempty|intros; reflexivity].

Ltac apply_step nonempty d tac :=
  step ltac:(eapply apply_column_last;
             [column_present nonempty
             |apply (mapM_map_returns _ _ d); intros ? ?; tac]).

Ltac assign_step :=
  step ltac:(apply assign_column_last);
  rewrite ?map_map, set_column_map.




(** ** Transformer: no entries *)

Lemma extract_loop_first_iteration cfg web l evs :
  iteration cfg web 1 [] = (evs, Break l) ->
  extract_all_anime cfg web = Some (Returns l, evs).
Proof.
  intros Hit. unfold extract_all_anime.
  destruct (Z.to_nat (Z.max 1 (cfg_max_pages cfg))) as [|fuel] eqn:Hfuel; [lia|].
  simpl. now rewrite Hit.
Qed.

(** C10. When the first page is empty, or the first request fails with a
    [RequestException], extraction returns no entry; the frame built from
    no entries has no columns, none of the twelve projected ones, and
    [preprocess_anime_data] raises [KeyError] on it instead of returning
    an empty frame. *)
Theorem preprocess_anime_data_no_entries_raises :
  (forall cfg web d,
     time_sleep (cfg_delay cfg) = Returns tt ->
     fetch_page web 1 = Returns d ->
     truthy d = false ->
     exists tr, extract_all_anime cfg web = Some (Returns [], tr)) /\
  (forall cfg web e,
     time_sleep (cfg_delay cfg) = Returns tt ->
     fetch_page web 1 = Raises e ->
     is_RequestException e = true ->
     exists tr, extract_all_anime cfg web = Some (Returns [], tr)) /\
  columns (pd_DataFrame []) = [] /\
  (forall c, In c columns_to_keep ->
     has_column (columns (pd_DataFrame [])) c = false) /\
  (forall to_datetime_date (h : store) df,
     h !! df = Some (pd_DataFrame []) ->
     exists h', preprocess_anime_data to_datetime_date df h
                = (Raises KeyError, h')).
Proof.
  split; [|split; [|split; [|split]]].
  - intros cfg web d Hs Hf Ht. eexists.
    apply extract_loop_first_iteration.
    unfold iteration, try_block. rewrite Hs, Hf, Ht. reflexivity.
  - intros cfg web e Hs Hf He. eexists.
    apply extract_loop_first_iteration.
    unfold iteration, try_block. rewrite Hs, Hf, He. reflexivity.
  - reflexivity.
  - intros c _. reflexivity.
  - intros to_datetime_date h df Hdf. exists h.
    unfold preprocess_anime_data.
    rewrite (bindS_returns _ _ _ [] h)
      by (unfold read_frame; now rewrite Hdf).
    reflexivity.
Qed.

(** An empty catalogue and an unreachable service both give no entry,
    and the frame of no entries makes the transformer raise. *)
Lemma preprocess_anime_data_no_entries_raises_witness :
  time_sleep (cfg_delay (config_with_max_pages 10)) = Returns tt /\
  fetch_page (catalogue []) 1 = Returns (PList []) /\
  truthy (PList []) = false /\
  fetch_page (unreachable Timeout) 1 = Raises Timeout /\
  is_RequestException Timeout = true /\
  [pd_DataFrame []] !! 0%nat = Some (pd_DataFrame []) /\
  (exists tr, extract_all_anime (config_with_max_pages 10) (catalogue [])
              = Some (Returns [], tr)) /\
  (exists tr, extract_all_anime (config_with_max_pages 10)
                (unreachable Timeout) = Some (Returns [], tr)) /\
  (exists h', preprocess_anime_data iso_date 0 [pd_DataFrame []]
              = (Raises KeyError, h')).
Proof.
  destruct preprocess_anime_data_no_entries_raises
    as (Hempty & Hfail & _ & _ & Hraise).
  repeat split.
  - exact (Hempty (config_with_max_pages 10) (catalogue []) (PList [])
             eq_refl eq_refl eq_refl).
  - exact (Hfail (config_with_max_pages 10) (unreachable Timeout) Timeout
             eq_refl eq_refl eq_refl).
  - exact (Hraise iso_date [pd_DataFrame []] 0%nat eq_refl).
Defined.

(** ** Loader *)

(** The SET list names every non-key column, so an upsert leaves the
    proposed row under its key, conflict or not. *)
Lemma upsert_insert (table : gmap Z anime_columns) k cols :
  upsert table k cols = <[k := cols]> table.
Proof. unfold upsert. destruct cols. now destruct (table !! k). Qed.

Lemma fold_upsert_lookup rows : forall (table : gmap Z anime_columns) k,
  fold_left upsert_row rows table !! k
  = match last_for k rows with
    | Some cols => Some cols
    | None => table !! k
    end.
Proof.
  induction rows as [|[k' cols] rows IH]; intros table k; simpl; [reflexivity|].
  rewrite IH. destruct (last_for k rows); [reflexivity|].
  unfold upsert_row. simpl. rewrite upsert_insert.
  destruct (Z.eqb_spec k' k) as [->|Hne].
  - apply lookup_insert_eq.
  - now apply lookup_insert_ne.
Qed.

(** Writing a batch twice gives the table that writing it once gives. *)
Lemma fold_upsert_idempotent rows (table : gmap Z anime_columns) :
  fold_left upsert_row rows (fold_left upsert_row rows table)
  = fold_left upsert_row rows table.
Proof.
  apply map_eq. intros k. rewrite !fold_upsert_lookup.
  now destruct (last_for k rows).
Qed.

Lemma executemany_returns values_row env data :
  forall i a t c cu l u s',
  executemany values_row env i data
    {| anime := a; txn := Some t; conn := c; cur := cu; log := l |}
  = (Returns u, s') ->
  exists rows,
    mapM values_row data = Returns rows /\
    s' = {| anime := a; txn := Some (fold_left upsert_row rows t);
            conn := c; cur := cu; log := l |}.
Proof.
  induction data as [|params data IH]; intros i a t c cu l u s' Hrun.
  - injection Hrun as _ <-. now exists [].
  - simpl in Hrun. unfold bindS, execute_insert, bindS, raise_fault in Hrun.
    destruct (execute_fault env i); [discriminate|].
    unfold ret, lift in Hrun.
    destruct (values_row params) as [row|] eqn:Hrow; [|discriminate].
    unfold modify, set_txn in Hrun. simpl in Hrun.
    destruct (IH _ _ _ _ _ _ _ _ Hrun) as (rows & Hrows & ->).
    exists (row :: rows). simpl. rewrite Hrow, Hrows. split; reflexivity.
Qed.

Lemma executemany_no_faults values_row data :
  forall i a t c cu l rows,
  mapM values_row data = Returns rows ->
  executemany values_row no_faults i data
    {| anime := a; txn := Some t; conn := c; cur := cu; log := l |}
  = (Returns tt,
     {| anime := a; txn := Some (fold_left upsert_row rows t);
        conn := c; cur := cu; log := l |}).
Proof.
  induction data as [|params data IH]; intros i a t c cu l rows Hrows.
  - injection Hrows as <-. reflexivity.
  - simpl in Hrows.
    destruct (values_row params) as [row|] eqn:Hrow; [|discriminate].
    simpl in Hrows.
    destruct (mapM values_row data) as [rows'|] eqn:Hrec; [|discriminate].
    injection Hrows as <-.
    simpl. unfold bindS, execute_insert, bindS. simpl.
    unfold lift. rewrite Hrow. unfold modify, set_txn. simpl.
    now rewrite (IH _ _ _ _ _ _ rows').
Qed.

Lemma load_to_postgres_returns values_row env df table v s :
  load_to_postgres values_row env df (at_call table) = (Returns v, s) ->
  v = PNone /\
  exists rows,
    mapM values_row (to_numpy df) = Returns rows /\
    s = loaded rows table (length df).
Proof.
  unfold load_to_postgres, load_try, bindS at 1, connect, bindS at 1.
  unfold raise_fault at 1.
  destruct (connect_fault env); [discriminate|].
  unfold ret at 1, modify at 1, at_call, set_conn, set_txn. simpl.
  unfold bindS at 1, cursor, bindS at 1, raise_fault at 1.
  destruct (cursor_fault env); [discriminate|].
  unfold ret at 1, modify at 1, set_cur. simpl.
  unfold bindS at 1, execute_create_table, bindS at 1, raise_fault at 1.
  destruct (create_table_fault env); [discriminate|].
  unfold ret at 1, modify at 1, set_txn. simpl.
  unfold bindS at 1.
  destruct (executemany _ _ _ _ _) as [[u|e] s1] eqn:Hmany.
  2:{ unfold load_except, bindS, modify, raise. simpl.
      destruct (load_finally _) as [[?|?] ?]; discriminate. }
  apply executemany_returns in Hmany as (rows & Hrows & ->).
  unfold bindS at 1, commit, bindS at 1, raise_fault.
  destruct (commit_fault env); [discriminate|].
  unfold ret, modify, set_anime, add_log. simpl.
  intros [= <- <-]. split; [reflexivity|].
  exists rows. split; [exact Hrows|]. reflexivity.
Qed.

Lemma load_to_postgres_no_faults values_row df table rows :
  mapM values_row (to_numpy df) = Returns rows ->
  load_to_postgres values_row no_faults df (at_call table)
  = (Returns PNone, loaded rows table (length df)).
Proof.
  intros Hrows.
  unfold load_to_postgres, load_try, bindS at 1, connect, bindS at 1.
  simpl.
  unfold bindS at 1, cursor, bindS at 1. simpl.
  unfold bindS at 1, execute_create_table, bindS at 1. simpl.
  unfold bindS at 1, set_txn, set_cur, set_conn, at_call. simpl.
  rewrite (executemany_no_faults values_row _ _ _ _ _ _ _ rows Hrows).
  reflexivity.
Qed.

(** C3. After a call of [load_to_postgres] that returns, every key of the
    batch holds the columns of its last row (each non-key column is the
    incoming value) and the other keys are as before; loading the same
    frame again returns when nothing fails, and every second call that
    returns leaves table [anime] exactly as the first call left it. *)
Theorem load_to_postgres_idempotent
    (values_row : list pyval -> pyresult (Z * anime_columns))
    (env : faults) (df : DataFrame) (table : option (gmap Z anime_columns))
    (v : pyval) (s1 : loader_state) :
  load_to_postgres values_row env df (at_call table) = (Returns v, s1) ->
  (exists rows t1,
     mapM values_row (to_numpy df) = Returns rows /\
     anime s1 = Some t1 /\
     forall k, t1 !! k = match last_for k rows with
                         | Some cols => Some cols
                         | None => default ∅ table !! k
                         end) /\
  (exists s2,
     load_to_postgres values_row no_faults df (at_call (anime s1))
     = (Returns PNone, s2) /\
     anime s2 = anime s1) /\
  (forall env2 v2 s2,
     load_to_postgres values_row env2 df (at_call (anime s1))
     = (Returns v2, s2) ->
     anime s2 = anime s1).
Proof.
  intros Hrun.
  apply load_to_postgres_returns in Hrun as (-> & rows & Hrows & ->).
  split; [|split].
  - exists rows, (fold_left upsert_row rows (default ∅ table)).
    split; [exact Hrows|]. split; [reflexivity|].
    intros k. apply fold_upsert_lookup.
  - eexists. split; [apply load_to_postgres_no_faults; exact Hrows|].
    simpl. now rewrite fold_upsert_idempotent.
  - intros env2 v2 s2 Hrun2.
    apply load_to_postgres_returns in Hrun2 as (_ & rows2 & Hrows2 & ->).
    assert (rows2 = rows) as -> by congruence.
    simpl. now rewrite fold_upsert_idempotent.
Qed.

(** The example records loaded into a database without the table. *)
Lemma load_to_postgres_idempotent_witness :
  load_to_postgres strict_values_row no_faults example_records (at_call None)
  = (Returns PNone, loaded example_rows None 1) /\
  exists s2,
    load_to_postgres strict_values_row no_faults example_records
      (at_call (anime (loaded example_rows None 1)))
    = (Returns PNone, s2) /\
    anime s2 = anime (loaded example_rows None 1).
Proof.
  assert (Hrun := load_to_postgres_no_faults strict_values_row
                    example_records None example_rows eq_refl).
  split; [exact Hrun|].
  exact (proj1 (proj2 (load_to_postgres_idempotent strict_values_row no_faults
                         example_records None _ _ Hrun))).
Defined.

(** C5, as the claim states it, fails: a successful call on one record
    returns [None], not the count 1. *)
Lemma load_to_postgres_returns_None :
  length example_records = 1%nat /\
  fst (load_to_postgres strict_values_row no_faults example_records
         (at_call None)) = Returns PNone /\
  fst (load_to_postgres strict_values_row no_faults example_records
         (at_call None)) <> Returns (PInt 1).
Proof.
  rewrite (load_to_postgres_no_faults strict_values_row example_records
             None _ eq_refl).
  repeat split. discriminate.
Qed.

(** C5, amended. Every call of [load_to_postgres] that returns, returns
    [None]; the number of records, [len(df)], is not returned but
    written to the log, in the one record of a successful call. *)
Theorem load_to_postgres_count_logged
    (values_row : list pyval -> pyresult (Z * anime_columns))
    (env : faults) (df : DataFrame) (table : option (gmap Z anime_columns))
    (v : pyval) (s : loader_state) :
  load_to_postgres values_row env df (at_call table) = (Returns v, s) ->
  v = PNone /\
  log s = [InfoLoaded (length df)].
Proof.
  intros Hrun.
  apply load_to_postgres_returns in Hrun as (-> & rows & _ & ->).
  split; reflexivity.
Qed.

(** One record loaded: [None] returned, the count 1 logged. *)
Lemma load_to_postgres_count_logged_witness :
  exists s,
    load_to_postgres strict_values_row no_faults example_records (at_call None)
    = (Returns PNone, s) /\
    log s = [InfoLoaded 1].
Proof.
  eexists.
  assert (Hrun := load_to_postgres_no_faults strict_values_row
                    example_records None _ eq_refl).
  split; [exact Hrun|].
  exact (proj2 (load_to_postgres_count_logged strict_values_row no_faults
                  example_records None _ _ Hrun)).
Defined.

(** C6. When the connection is refused, [conn] is not bound when the
    [finally] block reads it: the call raises [UnboundLocalError] in
    place of the error it has logged.  When the cursor cannot be
    created, [cur.close()] raises the same way and the connection stays
    open.  Only a failure after both are bound is raised again as
    itself with both closed. *)
Theorem load_to_postgres_failure_in_finally
    (values_row : list pyval -> pyresult (Z * anime_columns))
    (df : DataFrame) (table : option (gmap Z anime_columns)) :
  load_to_postgres values_row connection_refused df (at_call table)
  = (Raises UnboundLocalError,
     {| anime := table; txn := None; conn := None; cur := None;
        log := [ErrorDatabaseLoading Psycopg2Error] |}) /\
  load_to_postgres values_row cursor_refused df (at_call table)
  = (Raises UnboundLocalError,
     {| anime := table; txn := table; conn := Some Open; cur := None;
        log := [ErrorDatabaseLoading Psycopg2Error] |}) /\
  load_to_postgres values_row create_table_refused df (at_call table)
  = (Raises Psycopg2Error,
     {| anime := table; txn := None; conn := Some Closed; cur := Some Closed;
        log := [ErrorDatabaseLoading Psycopg2Error] |}).
Proof. repeat split. Qed.
